(** * pycheribuild/projects/cross/gdb.py

    A shallow embedding of the GDB build recipe of cheribuild: the scoped
    [TemporarilyRemoveProgramsFromSdk] resource, the [BuildGDB] project class
    (repository table, constructor, [setup], [configure], [compile],
    [install]) and its [BuildKGDB] variant, followed by the properties
    claimed for them. *)

From Stdlib Require Import Ascii String.
From stdpp Require Import gmap strings list fin_maps.

Open Scope string_scope.

(** ** Target descriptors *)

(** Modelled from the spec: [CompilationTargets] lives in the framework, not
    in gdb.py.  The seven descriptors named in gdb.py are listed first; the
    three purecap descriptors stand for the "purecap" ABI variant of the
    spec's data model (section 3), the one the constructor's assertion
    excludes. *)
Inductive CompilationTarget :=
  | NATIVE
  | CHERIBSD_MIPS_HYBRID
  | CHERIBSD_RISCV_HYBRID
  | CHERIBSD_MIPS_NO_CHERI
  | CHERIBSD_RISCV_NO_CHERI
  | CHERIBSD_AARCH64
  | CHERIBSD_MORELLO_HYBRID
  | CHERIBSD_MIPS_PURECAP
  | CHERIBSD_RISCV_PURECAP
  | CHERIBSD_MORELLO_PURECAP.

#[global] Instance CompilationTarget_eq_dec : EqDecision CompilationTarget.
Proof. solve_decision. Defined.

Definition target_index (t : CompilationTarget) : nat :=
  match t with
  | NATIVE => 0
  | CHERIBSD_MIPS_HYBRID => 1
  | CHERIBSD_RISCV_HYBRID => 2
  | CHERIBSD_MIPS_NO_CHERI => 3
  | CHERIBSD_RISCV_NO_CHERI => 4
  | CHERIBSD_AARCH64 => 5
  | CHERIBSD_MORELLO_HYBRID => 6
  | CHERIBSD_MIPS_PURECAP => 7
  | CHERIBSD_RISCV_PURECAP => 8
  | CHERIBSD_MORELLO_PURECAP => 9
  end.

Definition target_of_index (n : nat) : CompilationTarget :=
  match n with
  | 0 => NATIVE
  | 1 => CHERIBSD_MIPS_HYBRID
  | 2 => CHERIBSD_RISCV_HYBRID
  | 3 => CHERIBSD_MIPS_NO_CHERI
  | 4 => CHERIBSD_RISCV_NO_CHERI
  | 5 => CHERIBSD_AARCH64
  | 6 => CHERIBSD_MORELLO_HYBRID
  | 7 => CHERIBSD_MIPS_PURECAP
  | 8 => CHERIBSD_RISCV_PURECAP
  | _ => CHERIBSD_MORELLO_PURECAP
  end.

#[global] Program Instance CompilationTarget_countable : Countable CompilationTarget :=
  inj_countable' target_index target_of_index _.
Next Obligation. by intros []. Qed.

(** Modelled from the spec: the descriptor predicates of the framework
    ("host-native vs one of several cross targets (architecture + ABI
    variant, e.g. CHERI-hybrid, purecap, no-CHERI)"), read off the
    descriptor names. *)
Definition is_native (t : CompilationTarget) : bool :=
  match t with NATIVE => true | _ => false end.

Definition is_cheri_purecap (t : CompilationTarget) : bool :=
  match t with
  | CHERIBSD_MIPS_PURECAP | CHERIBSD_RISCV_PURECAP | CHERIBSD_MORELLO_PURECAP => true
  | _ => false
  end.

Definition is_cheri_hybrid (t : CompilationTarget) : bool :=
  match t with
  | CHERIBSD_MIPS_HYBRID | CHERIBSD_RISCV_HYBRID | CHERIBSD_MORELLO_HYBRID => true
  | _ => false
  end.

Definition is_cheribsd (t : CompilationTarget) : bool :=
  match t with NATIVE => false | _ => true end.

(** ** Repositories and branch selection *)

Record TargetBranchInfo := {
  branch : string;
  directory_name : string;
}.

Record GitRepository := {
  url : string;
  default_branch : string;
  force_branch : bool;
  per_target_branches : gmap CompilationTarget TargetBranchInfo;
  old_urls : list string;
}.

(** Modelled from the spec: the lookup itself is a method of the framework's
    [GitRepository].  "Branch selection table: mapping from target descriptor
    to (branch name, checkout directory name) ... every target either uses
    the default branch or has an explicit override".  [default_directory] is
    the checkout directory of a project without an override. *)
Definition branch_selection (repo : GitRepository) (default_directory : string)
    (t : CompilationTarget) : TargetBranchInfo :=
  match per_target_branches repo !! t with
  | Some override => override
  | None => {| branch := default_branch repo; directory_name := default_directory |}
  end.

(** ** Paths, files and external commands *)

(** [Path / name] of pathlib. *)
Definition path_join (dir name : string) : string := dir +:+ "/" +:+ name.

Infix "</>" := path_join (at level 40, left associativity).

(** Last component of a path (pathlib's [name]). *)
Fixpoint basename_from (acc s : string) : string :=
  match s with
  | EmptyString => acc
  | String c rest =>
      if Ascii.eqb c "/"%char then basename_from "" rest
      else basename_from (acc +:+ String c "") rest
  end.

Definition basename (p : string) : string := basename_from "" p.

Inductive Command :=
  | Make (make_target cwd : string)
  | MakeInstall (target : string) (make_install_env : gmap string string)
  | InstallFile (src dst : string)
  | Configure (args : list string) (env : gmap string string).

Inductive Event :=
  | Ran (c : Command) (succeeded : bool)
  | StatusUpdate (words : list string)
  | Info (words : list string)
  | Printed (words : list string).

Inductive Exn :=
  | CalledProcessError (c : Command)
  | MvError (src : string)
  | AssertionError (msg : string).

(** The world a build step runs in: the file system (every existing path,
    with the content stored there) and the log of what was run and said. *)
Record World := {
  fs : gmap string string;
  trace : list Event;
}.

Inductive Res (A : Type) :=
  | Ok (a : A)
  | Raise (e : Exn).
Arguments Ok {A} a.
Arguments Raise {A} e.

(** Python statements: a state transformer that returns or raises. *)
Definition M (A : Type) : Type := World → Res A * World.

#[global] Instance M_ret : MRet M := λ A a w, (Ok a, w).

#[global] Instance M_bind : MBind M := λ A B k m w,
  match m w with
  | (Ok a, w1) => k a w1
  | (Raise e, w1) => (Raise e, w1)
  end.

Definition raise {A} (e : Exn) : M A := λ w, (Raise e, w).

Definition emit (e : Event) : M unit :=
  λ w, (Ok (), {| fs := fs w; trace := trace w ++ [e] |}).

(** [pass], and the missing [else] of an [if]. *)
Definition skip : M unit := mret ().

Definition py_assert (cond : bool) (msg : string) : M unit :=
  if cond then skip else raise (AssertionError msg).

Fixpoint for_each {A} (xs : list A) (body : A → M unit) : M unit :=
  match xs with
  | [] => skip
  | x :: rest => body x ;; for_each rest body
  end.

(** [with mgr: body].  [__exit__] runs on every path out of the body; it
    returns [False] here, so an exception of the body is re-raised after it.
    When [__enter__] itself raises, neither the body nor [__exit__] runs. *)
Definition with_statement {A} (enter exit : M unit) (body : M A) : M A :=
  λ w, match enter w with
       | (Raise e, w1) => (Raise e, w1)
       | (Ok _, w1) =>
           let '(r, w2) := body w1 in
           match exit w2 with
           | (Raise e, w3) => (Raise e, w3)
           | (Ok _, w3) => (r, w3)
           end
       end.

Definition path_exists (p : string) (w : World) : bool :=
  bool_decide (is_Some (fs w !! p)).

(** [mv -f src dst] on a file system. *)
Definition mv_f (src dst : string) (files : gmap string string) : gmap string string :=
  match files !! src with
  | Some content => <[dst := content]> (delete src files)
  | None => files
  end.

(** Whether an external command succeeds is decided outside the recipe:
    an oracle gives the exit status of a command started in a world. *)
Definition Oracle : Type := Command → World → bool.

(** Modelled from the spec: the framework's subprocess runner behind
    [run_make], [run_make_install], [install_file] and the generic
    configure step.  "a non-zero exit status from a delegated subprocess
    (configure/make/install) ... aborts the current stage and is surfaced
    unchanged".  The run and its exit status are logged.  The files a
    command writes (build outputs below the build directory, installed
    files below the installation prefix) are not tracked: [fs] changes only
    through the renames of TemporarilyRemoveProgramsFromSdk, that is, make
    is taken not to touch the programs moved away nor their backups. *)
Definition run (oracle : Oracle) (c : Command) : M unit :=
  λ w, let ok := oracle c w in
       let w' := {| fs := fs w; trace := trace w ++ [Ran c ok] |} in
       (if ok then Ok () else Raise (CalledProcessError c), w').

(** [run_command("mv", "-f", src, dst, cwd=...)].  [run_command] belongs to
    the framework's utils, not to gdb.py, and is taken as follows: in
    pretend mode (a dry run) commands are only shown, never carried out,
    which is why [__exit__] may issue the move for a backup that does not
    exist; otherwise the move is carried out, and fails on a missing
    source. *)
Definition run_command_mv (pretend : bool) (cwd src dst : string) : M unit :=
  λ w, if pretend then (Ok (), w)
       else match fs w !! (cwd </> src) with
            | Some _ =>
                (Ok (), {| fs := mv_f (cwd </> src) (cwd </> dst) (fs w);
                           trace := trace w |})
            | None => (Raise (MvError (cwd </> src)), w)
            end.

(** [Path.exists()]. *)
Definition exists_ (p : string) : M bool := λ w, (Ok (path_exists p w), w).

Record CheriConfig := {
  pretend : bool;
}.

(** ** class TemporarilyRemoveProgramsFromSdk *)

Module TemporarilyRemoveProgramsFromSdk.

Record t := {
  programs : list string;
  config : CheriConfig;
  sdk_bindir : string;
}.

Definition __enter__ (self : t) : M unit :=
  emit (StatusUpdate ("Temporarily moving" :: programs self ++ ["from"; sdk_bindir self]));;
  for_each (programs self) (λ prog,
    exists_ (sdk_bindir self </> prog) ≫= λ present : bool,
    if present
    then run_command_mv (pretend (config self)) (sdk_bindir self) prog (prog +:+ ".backup")
    else skip).

Definition __exit__ (self : t) : M unit :=
  emit (StatusUpdate ("Restoring" :: programs self ++ ["in"; sdk_bindir self]));;
  for_each (programs self) (λ prog,
    exists_ (sdk_bindir self </> (prog +:+ ".backup")) ≫= λ present : bool,
    if present || pretend (config self)
    then run_command_mv (pretend (config self)) (sdk_bindir self) (prog +:+ ".backup") prog
    else skip).

End TemporarilyRemoveProgramsFromSdk.

(** ** The project object *)

Inductive Linkage := DEFAULT | STATIC | DYNAMIC.

(** What the methods of gdb.py read from [self] and never assign: values the
    framework's base classes and the orchestrator supply. *)
Record Project := {
  config : CheriConfig;
  crosscompile_target : CompilationTarget;
  IS_MAC : bool;                          (* OSInfo.IS_MAC *)
  install_dir : string;
  install_prefix : string;
  build_dir : string;
  sdk_bindir : string;
  should_include_debug_info : bool;
  which_false : option string;            (* shutil.which("false") *)
  sys_executable : string;
  make_command : string;                  (* make_args.command *)
  host_CC : string;
  host_CXX : string;
  make_install_env : gmap string string;
  purecap_rootfs : string;                (* install_dir of the purecap rootfs project *)
}.

(** The lists and mappings [setup] and [configure] mutate. *)
Record ProjectState := {
  configure_args : list string;
  configure_environment : gmap string string;
  common_warning_flags : list string;
  CXXFLAGS : list string;
  COMMON_FLAGS : list string;
  cross_warning_flags : list string;
  LDFLAGS : list string;
  make_args_env : gmap string string;
}.

Definition with_configure_args (f : list string → list string) (st : ProjectState) :=
  {| configure_args := f (configure_args st);
     configure_environment := configure_environment st;
     common_warning_flags := common_warning_flags st;
     CXXFLAGS := CXXFLAGS st;
     COMMON_FLAGS := COMMON_FLAGS st;
     cross_warning_flags := cross_warning_flags st;
     LDFLAGS := LDFLAGS st;
     make_args_env := make_args_env st |}.

Definition with_configure_environment
    (f : gmap string string → gmap string string) (st : ProjectState) :=
  {| configure_args := configure_args st;
     configure_environment := f (configure_environment st);
     common_warning_flags := common_warning_flags st;
     CXXFLAGS := CXXFLAGS st;
     COMMON_FLAGS := COMMON_FLAGS st;
     cross_warning_flags := cross_warning_flags st;
     LDFLAGS := LDFLAGS st;
     make_args_env := make_args_env st |}.

Definition with_common_warning_flags (f : list string → list string) (st : ProjectState) :=
  {| configure_args := configure_args st;
     configure_environment := configure_environment st;
     common_warning_flags := f (common_warning_flags st);
     CXXFLAGS := CXXFLAGS st;
     COMMON_FLAGS := COMMON_FLAGS st;
     cross_warning_flags := cross_warning_flags st;
     LDFLAGS := LDFLAGS st;
     make_args_env := make_args_env st |}.

Definition with_CXXFLAGS (f : list string → list string) (st : ProjectState) :=
  {| configure_args := configure_args st;
     configure_environment := configure_environment st;
     common_warning_flags := common_warning_flags st;
     CXXFLAGS := f (CXXFLAGS st);
     COMMON_FLAGS := COMMON_FLAGS st;
     cross_warning_flags := cross_warning_flags st;
     LDFLAGS := LDFLAGS st;
     make_args_env := make_args_env st |}.

Definition with_COMMON_FLAGS (f : list string → list string) (st : ProjectState) :=
  {| configure_args := configure_args st;
     configure_environment := configure_environment st;
     common_warning_flags := common_warning_flags st;
     CXXFLAGS := CXXFLAGS st;
     COMMON_FLAGS := f (COMMON_FLAGS st);
     cross_warning_flags := cross_warning_flags st;
     LDFLAGS := LDFLAGS st;
     make_args_env := make_args_env st |}.

Definition with_cross_warning_flags (f : list string → list string) (st : ProjectState) :=
  {| configure_args := configure_args st;
     configure_environment := configure_environment st;
     common_warning_flags := common_warning_flags st;
     CXXFLAGS := CXXFLAGS st;
     COMMON_FLAGS := COMMON_FLAGS st;
     cross_warning_flags := f (cross_warning_flags st);
     LDFLAGS := LDFLAGS st;
     make_args_env := make_args_env st |}.

Definition with_LDFLAGS (f : list string → list string) (st : ProjectState) :=
  {| configure_args := configure_args st;
     configure_environment := configure_environment st;
     common_warning_flags := common_warning_flags st;
     CXXFLAGS := CXXFLAGS st;
     COMMON_FLAGS := COMMON_FLAGS st;
     cross_warning_flags := cross_warning_flags st;
     LDFLAGS := f (LDFLAGS st);
     make_args_env := make_args_env st |}.

Definition with_make_args_env
    (f : gmap string string → gmap string string) (st : ProjectState) :=
  {| configure_args := configure_args st;
     configure_environment := configure_environment st;
     common_warning_flags := common_warning_flags st;
     CXXFLAGS := CXXFLAGS st;
     COMMON_FLAGS := COMMON_FLAGS st;
     cross_warning_flags := cross_warning_flags st;
     LDFLAGS := LDFLAGS st;
     make_args_env := f (make_args_env st) |}.

(** [list.append] and [list.extend]. *)
Definition append (x : string) (l : list string) : list string := l ++ [x].
Definition extend (xs : list string) (l : list string) : list string := l ++ xs.

(** [dict.update(k1=v1, ...)]: later keys overwrite earlier ones. *)
Definition update (kvs : list (string * string)) (d : gmap string string) :
    gmap string string :=
  foldl (λ acc kv, <[kv.1 := kv.2]> acc) d kvs.

(** [str(x)] of an [Optional[str]]. *)
Definition str_optional (o : option string) : string :=
  match o with Some s => s | None => "None" end.

(** Modelled from the spec: the framework predicates on [self] used by
    gdb.py.  The host is the native descriptor; a build is "for CHERI" when
    its ABI is purecap (the assertion message of the constructor:
    "not CHERIABI"); the target runs macOS only when it is the host and the
    host does. *)
Definition compiling_for_host (self : Project) : bool :=
  is_native (crosscompile_target self).

Definition compiling_for_cheri (self : Project) : bool :=
  is_cheri_purecap (crosscompile_target self).

Definition compiling_for_cheri_hybrid (self : Project) : bool :=
  is_cheri_hybrid (crosscompile_target self).

Definition target_info_is_macos (self : Project) : bool :=
  is_native (crosscompile_target self) && IS_MAC self.

Definition target_info_is_cheribsd (self : Project) : bool :=
  is_cheribsd (crosscompile_target self).

(** Modelled from the spec: [add_configure_env_arg] of the base class, one
    of the "tool paths for archiver/linker/symbol-table tools" among the
    "environment variables touched". *)
Definition add_configure_env_arg (arg value : string) (st : ProjectState) : ProjectState :=
  with_configure_environment (insert arg value) st.

(** ** class BuildGDB *)

Module BuildGDB.

Definition repository : GitRepository :=
  {| url := "https://github.com/CTSRD-CHERI/gdb.git";
     default_branch := "mips_cheri-8.3";
     force_branch := true;
     per_target_branches :=
       <[CHERIBSD_MORELLO_HYBRID :=
           {| branch := "morello-8.3"; directory_name := "morello-gdb" |}]>
       (<[CHERIBSD_AARCH64 :=
           {| branch := "morello-8.3"; directory_name := "morello-gdb" |}]> ∅);
     old_urls := ["https://github.com/bsdjhb/gdb.git"] |}.

Definition supported_architectures : list CompilationTarget :=
  [NATIVE;
   CHERIBSD_MIPS_HYBRID; CHERIBSD_RISCV_HYBRID;
   CHERIBSD_MIPS_NO_CHERI; CHERIBSD_RISCV_NO_CHERI;
   CHERIBSD_AARCH64; CHERIBSD_MORELLO_HYBRID].

Definition default_architecture : CompilationTarget := NATIVE.

(** The attributes the constructor assigns. *)
Record Attributes := {
  _compile_status_message : option string;
  _linkage : option Linkage;
}.

(** Lines 91-94 of [__init__]: what is assigned before [super().__init__]. *)
Definition init_before_super (_xtarget : CompilationTarget) (cls : Attributes) : Attributes :=
  let self := {| _compile_status_message := None; _linkage := _linkage cls |} in
  if negb (is_native _xtarget)
  then {| _compile_status_message := _compile_status_message self;
          _linkage := Some STATIC |}
  else self.

(** [__init__]; [super_init] is the constructor of the base class, [cls] the
    attributes inherited from the class. *)
Definition __init__ (super_init : Attributes → Attributes)
    (_xtarget : CompilationTarget) (cls : Attributes) : Res Attributes :=
  let self := super_init (init_before_super _xtarget cls) in
  if negb (is_cheri_purecap _xtarget)
  then Ok self
  else Raise (AssertionError "Should only build this as a static MIPS binary not CHERIABI").

(** [setup]; [st0] is the state [super().setup()] leaves. *)
Definition setup (self : Project) (st0 : ProjectState) : ProjectState :=
  let install_root :=
    if compiling_for_host self then install_dir self else install_prefix self in
  let st := with_configure_args (extend [
      "--disable-nls";
      "--enable-tui";
      (if compiling_for_host self then "--enable-ld=yes" else "--disable-ld");
      "--disable-gold";
      "--enable-64-bit-bfd";
      "--without-gnu-as";
      "--mandir=" +:+ (install_root </> "man");
      "--infodir=" +:+ (install_root </> "info");
      "--disable-werror";
      "MAKEINFO=" +:+ str_optional (which_false self);
      "--with-gdb-datadir=" +:+ (install_root </> "share/gdb");
      "--disable-libstdcxx";
      "--with-guile=no"
    ]) st0 in
  let st :=
    if compiling_for_host self && target_info_is_macos self
    then with_configure_args (append "--target=x86_64-unknown-freebsd13") st
    else st in
  let st :=
    if false && compiling_for_host self
    then with_configure_args (append "--enable-gdbtk") st
    else st in
  let st := with_common_warning_flags (extend [
      "-Wno-mismatched-tags";
      "-Wno-unknown-warning-option";
      "-Werror=implicit-function-declaration"
    ]) st in
  let st := with_CXXFLAGS (append "-Wno-mismatched-tags") st in
  let st :=
    if should_include_debug_info self then with_COMMON_FLAGS (append "-g") st else st in
  let st := with_COMMON_FLAGS (append "-fcommon") st in
  let st := with_cross_warning_flags (append "-Wno-error=format") st in
  let st := with_cross_warning_flags (append "-Wno-error=incompatible-pointer-types") st in
  let st := with_configure_args (append "--enable-targets=all") st in
  let st :=
    if compiling_for_host self then
      let st := with_LDFLAGS (append "-L/usr/local/lib") st in
      let st := with_configure_args (append "--with-expat") st in
      with_configure_args (append ("--with-python=" +:+ sys_executable self)) st
    else
      let st := with_configure_args
        (extend ["--without-python"; "--without-expat"; "--without-libunwind-ia64"]) st in
      let st := with_configure_environment (update [
          ("gl_cv_func_gettimeofday_clobber", "no");
          ("lt_cv_sys_max_cmd_len", "262144");
          ("am_cv_CC_dependencies_compiler_type", "gcc3");
          ("MAKEINFO", "/bin/false")
        ]) st in
      let st := with_COMMON_FLAGS (append "-static") st in
      let st := with_LDFLAGS (append "--static") st in
      let st := with_COMMON_FLAGS
        (extend ["-DRL_NO_COMPAT"; "-DLIBICONV_PLUG"; "-fno-strict-aliasing"]) st in
      let st := with_LDFLAGS (append "-lelf") st in
      with_configure_environment (update [
          ("CONFIGURED_M4", "m4");
          ("CONFIGURED_BISON", "byacc");
          ("TMPDIR", "/tmp");
          ("LIBS", "")
        ]) st in
  let st :=
    if bool_decide (make_command self = "gmake")
    then with_configure_environment (insert "MAKE" "gmake") st
    else st in
  let st := with_configure_environment (insert "CC_FOR_BUILD" (host_CC self)) st in
  let st := with_configure_environment (insert "CXX_FOR_BUILD" (host_CXX self)) st in
  let st := with_configure_environment (insert "CFLAGS_FOR_BUILD" "-g -fcommon") st in
  let st := with_configure_environment (insert "CXXFLAGS_FOR_BUILD" "-g -fcommon") st in
  let st :=
    if negb (compiling_for_host self) then
      let st := add_configure_env_arg "AR" (sdk_bindir self </> "ar") st in
      let st := add_configure_env_arg "RANLIB" (sdk_bindir self </> "ranlib") st in
      add_configure_env_arg "NM" (sdk_bindir self </> "nm") st
    else st in
  with_make_args_env (λ env, configure_environment st ∪ env) st.

(** [configure]: the state handed to the generic configure step is returned. *)
Definition configure (oracle : Oracle) (self : Project) (st : ProjectState) :
    M ProjectState :=
  (if compiling_for_host self && IS_MAC self
   then
     let st := with_configure_environment (λ _, ∅) st in
     emit (Printed (configure_args st));; mret st
   else mret st) ≫= λ st : ProjectState,
  run oracle (Configure (configure_args st) (configure_environment st));;
  mret st.

Definition run_make (oracle : Oracle) (make_target cwd : string) : M unit :=
  run oracle (Make make_target cwd).

Definition compile (oracle : Oracle) (self : Project) : M unit :=
  let mgr := {| TemporarilyRemoveProgramsFromSdk.programs := ["as"; "ld"; "objcopy"; "objdump"];
                TemporarilyRemoveProgramsFromSdk.config := config self;
                TemporarilyRemoveProgramsFromSdk.sdk_bindir := install_dir self |} in
  with_statement
    (TemporarilyRemoveProgramsFromSdk.__enter__ mgr)
    (TemporarilyRemoveProgramsFromSdk.__exit__ mgr)
    (run_make oracle "all-binutils" (build_dir self);;
     run_make oracle "all-gdb" (build_dir self);;
     if compiling_for_host self
     then run_make oracle "all-ld" (build_dir self)
     else skip).

Definition run_make_install (oracle : Oracle) (target : string)
    (make_install_env : gmap string string) : M unit :=
  run oracle (MakeInstall target make_install_env).

Definition install_file (oracle : Oracle) (src dst : string) : M unit :=
  run oracle (InstallFile src dst).

Definition binutils : list string :=
  ["objdump"; "objcopy"; "addr2line"; "readelf"; "ar"; "ranlib"; "size"; "strings"].

Definition install (oracle : Oracle) (self : Project) : M unit :=
  run_make_install oracle "install-gdb" (make_install_env self);;
  (if target_info_is_cheribsd self && compiling_for_cheri_hybrid self then
     let make_install_env := make_install_env self in
     let purecap_rootfs := purecap_rootfs self in
     exists_ (purecap_rootfs </> "usr") ≫= λ present : bool,
     if present then
       emit (Info ["Also installing to"; purecap_rootfs]);;
       py_assert (bool_decide (is_Some (make_install_env !! "DESTDIR")))
         "DESTDIR must be set in install";;
       let make_install_env := <["DESTDIR" := purecap_rootfs]> make_install_env in
       run_make_install oracle "install-gdb" make_install_env
     else
       emit (Info ["Not installing to purecap rootfs"; purecap_rootfs;
                   "since it doesn't exist"])
   else skip);;
  if compiling_for_host self then
    let bindir := install_dir self </> "bin" in
    for_each binutils (λ util,
      install_file oracle (build_dir self </> "binutils" </> util) (bindir </> ("g" +:+ util)));;
    install_file oracle (build_dir self </> "binutils/cxxfilt") (bindir </> "gc++filt");;
    install_file oracle (build_dir self </> "binutils/nm-new") (bindir </> "gnm");;
    install_file oracle (build_dir self </> "binutils/strip-new") (bindir </> "gstrip");;
    install_file oracle (build_dir self </> "ld/ld-new") (bindir </> "ld.bfd");;
    install_file oracle (build_dir self </> "ld/ld-new") (bindir </> "gld.bfd")
  else skip.

End BuildGDB.

(** ** class BuildKGDB(BuildGDB) *)

Module BuildKGDB.

(** No [per_target_branches] argument: the table is empty. *)
Definition repository : GitRepository :=
  {| url := "https://github.com/CTSRD-CHERI/gdb.git";
     default_branch := "mips_cheri-8.3-kgdb";
     force_branch := true;
     per_target_branches := ∅;
     old_urls := ["https://github.com/bsdjhb/gdb.git"] |}.

(** Everything else is inherited. *)
Definition supported_architectures := BuildGDB.supported_architectures.
Definition default_architecture := BuildGDB.default_architecture.
Definition __init__ := BuildGDB.__init__.
Definition setup := BuildGDB.setup.
Definition configure := BuildGDB.configure.
Definition compile := BuildGDB.compile.
Definition install := BuildGDB.install.

End BuildKGDB.

(** ** Observations on logs *)

(** The make targets run, in order, each with its exit status. *)
Definition make_runs (tr : list Event) : list (string * bool) :=
  omap (λ e, match e with Ran (Make target _) ok => Some (target, ok) | _ => None end) tr.

(** The files copied by successful [install_file] calls, as (source,
    destination) pairs in order. *)
Definition copied_files (tr : list Event) : list (string * string) :=
  omap (λ e, match e with Ran (InstallFile src dst) true => Some (src, dst) | _ => None end) tr.

(** The environments of the installer passes run, in order. *)
Definition install_passes (tr : list Event) : list (string * gmap string string) :=
  omap (λ e, match e with Ran (MakeInstall target env) _ => Some (target, env) | _ => None end) tr.

(** A sequence of [mv -f] renames, first to last. *)
Definition moves (l : list (string * string)) (files : gmap string string) :
    gmap string string :=
  foldl (λ acc sd, mv_f sd.1 sd.2 acc) files l.

(** The renames [__enter__] and [__exit__] issue for a list of programs. *)
Definition backup_moves (dir : string) (progs : list string) : list (string * string) :=
  (λ prog, (dir </> prog, dir </> (prog +:+ ".backup"))) <$> progs.

Definition restore_moves (dir : string) (progs : list string) : list (string * string) :=
  (λ prog, (dir </> (prog +:+ ".backup"), dir </> prog)) <$> progs.

(** The programs compile() moves out of the way. *)
Definition shadowed_programs : list string := ["as"; "ld"; "objcopy"; "objdump"].

Definition morello_info : TargetBranchInfo :=
  {| branch := "morello-8.3"; directory_name := "morello-gdb" |}.

(** Every path a manager may rename: its programs and their backups. *)
Definition manager_paths (dir : string) (progs : list string) : list string :=
  ((path_join dir <$> progs)
   ++ (path_join dir <$> ((λ prog, prog +:+ ".backup") <$> progs)))%list.

(** None of the programs compile() moves away is present in [dir]. *)
Definition programs_hidden (dir : string) (w : World) : bool :=
  forallb (λ prog, negb (path_exists (dir </> prog) w)) shadowed_programs.


(** An oracle under which the first two copies succeed and the third fails. *)
Definition fails_at_addr2line : Oracle :=
  λ c _, match c with
         | InstallFile src _ => negb (String.eqb src "/build/gdb/binutils/addr2line")
         | _ => true
         end.

(** ** Sample inputs *)

Definition sample_project (t : CompilationTarget) (is_mac dry_run : bool) : Project :=
  {| config := {| pretend := dry_run |};
     crosscompile_target := t;
     IS_MAC := is_mac;
     install_dir := "/sdk";
     install_prefix := "/usr/local";
     build_dir := "/build/gdb";
     sdk_bindir := "/sdk/bin";
     should_include_debug_info := false;
     which_false := Some "/usr/bin/false";
     sys_executable := "/usr/bin/python3";
     make_command := "gmake";
     host_CC := "/usr/bin/cc";
     host_CXX := "/usr/bin/c++";
     make_install_env := {["DESTDIR" := "/rootfs"]};
     purecap_rootfs := "/rootfs-purecap" |}.

Definition empty_state : ProjectState :=
  {| configure_args := [];
     configure_environment := ∅;
     common_warning_flags := [];
     CXXFLAGS := [];
     COMMON_FLAGS := [];
     cross_warning_flags := [];
     LDFLAGS := [];
     make_args_env := ∅ |}.

Definition always_succeeds : Oracle := λ _ _, true.
Definition always_fails : Oracle := λ _ _, false.

Definition empty_world : World := {| fs := ∅; trace := [] |}.

(** The purecap root filesystem of [sample_project] is there. *)
Definition purecap_world : World :=
  {| fs := {["/rootfs-purecap/usr" := ""]}; trace := [] |}.

(** An SDK directory with an assembler and a stale objdump backup. *)
Definition sdk_world : World :=
  {| fs := {["/sdk/as" := "assembler"; "/sdk/objdump.backup" := "old objdump";
             "/sdk/gdb" := "debugger"]};
     trace := [] |}.

(** An SDK directory without backup files. *)
Definition tidy_world : World :=
  {| fs := {["/sdk/as" := "assembler"; "/sdk/gdb" := "debugger"]}; trace := [] |}.

(** A manager for two programs, outside pretend mode. *)
Definition sample_manager : TemporarilyRemoveProgramsFromSdk.t :=
  {| TemporarilyRemoveProgramsFromSdk.programs := ["as"; "ld"];
     TemporarilyRemoveProgramsFromSdk.config := {| pretend := false |};
     TemporarilyRemoveProgramsFromSdk.sdk_bindir := "/sdk" |}.

(** A host whose PATH has no [false] program. *)
Definition project_without_false : Project :=
  {| config := {| pretend := false |};
     crosscompile_target := NATIVE;
     IS_MAC := true;
     install_dir := "/sdk";
     install_prefix := "/usr/local";
     build_dir := "/build/gdb";
     sdk_bindir := "/sdk/bin";
     should_include_debug_info := true;
     which_false := None;
     sys_executable := "/usr/bin/python3";
     make_command := "make";
     host_CC := "/usr/bin/cc";
     host_CXX := "/usr/bin/c++";
     make_install_env := ∅;
     purecap_rootfs := "/rootfs-purecap" |}.

Ltac setup_bools self :=
  unfold BuildGDB.setup, target_info_is_macos, compiling_for_host, extend, append;
  destruct (is_native (crosscompile_target self)), (IS_MAC self),
    (should_include_debug_info self), (bool_decide (make_command self = "gmake")).

Ltac setup_fields :=
  cbn [configure_args configure_environment common_warning_flags CXXFLAGS COMMON_FLAGS
       cross_warning_flags LDFLAGS make_args_env
       with_configure_args with_configure_environment with_common_warning_flags
       with_CXXFLAGS with_COMMON_FLAGS with_cross_warning_flags with_LDFLAGS
       with_make_args_env add_configure_env_arg negb andb];
  rewrite <- ?(assoc_L app).

Ltac flag_iff :=
  rewrite ?elem_of_app, ?elem_of_cons, ?elem_of_nil;
  split;
  [ intros Hin; decompose [or] Hin; clear Hin; try discriminate; try done; auto
  | intros [Hin|Hin]; try discriminate; auto 20 ].

Ltac case_oracle oracle :=
  match goal with
  | |- context [oracle ?c ?w] =>
      let E := fresh "Hstatus" in destruct (oracle c w) eqn:E
  end.

Ltac run_cases oracle :=
  repeat (case_oracle oracle; cbn [fst snd fs trace]).


(** ** Branch selection *)

(** C3.  For every supported target, the branch selection of BuildGDB's
    repository is one pair: (morello-8.3, morello-gdb) for CHERIBSD_AARCH64
    and CHERIBSD_MORELLO_HYBRID, the default branch mips_cheri-8.3 (in the
    project's default directory) for every other supported target. *)
Theorem branch_selection_supported (default_directory : string) :
  Forall (λ t,
    branch_selection BuildGDB.repository default_directory t =
      if bool_decide (t = CHERIBSD_AARCH64 ∨ t = CHERIBSD_MORELLO_HYBRID)
      then morello_info
      else {| branch := "mips_cheri-8.3"; directory_name := default_directory |})
    BuildGDB.supported_architectures.
Proof. repeat constructor. Qed.

(** The selection is total beyond the supported set as well. *)
Lemma branch_selection_gdb (default_directory : string) (t : CompilationTarget) :
  branch_selection BuildGDB.repository default_directory t =
    if bool_decide (t = CHERIBSD_AARCH64 ∨ t = CHERIBSD_MORELLO_HYBRID)
    then morello_info
    else {| branch := "mips_cheri-8.3"; directory_name := default_directory |}.
Proof. by destruct t. Qed.

Lemma branch_selection_kgdb (default_directory : string) (t : CompilationTarget) :
  branch_selection BuildKGDB.repository default_directory t =
    {| branch := "mips_cheri-8.3-kgdb"; directory_name := default_directory |}.
Proof. by destruct t. Qed.

(** C5, as stated, fails: for CHERIBSD_AARCH64 the two recipes select
    different checkout directories, not only different branches. *)
Lemma kgdb_selection_differs_in_directory :
  directory_name (branch_selection BuildGDB.repository "gdb" CHERIBSD_AARCH64) = "morello-gdb"
  ∧ directory_name (branch_selection BuildKGDB.repository "gdb" CHERIBSD_AARCH64) = "gdb"
  ∧ ¬ (directory_name (branch_selection BuildKGDB.repository "gdb" CHERIBSD_AARCH64) =
       directory_name (branch_selection BuildGDB.repository "gdb" CHERIBSD_AARCH64)).
Proof. repeat split. discriminate. Qed.

(** C5, amended.  BuildKGDB inherits setup, configure, compile, install (and
    the constructor) unchanged and overrides only the repository.  Its
    repository selects, for every target, the branch mips_cheri-8.3-kgdb in
    the default directory; BuildGDB's selects mips_cheri-8.3 in the same
    directory for the targets without an override, and (morello-8.3,
    morello-gdb) for CHERIBSD_AARCH64 and CHERIBSD_MORELLO_HYBRID, where the
    two selections differ in the directory too. *)
Theorem kgdb_differs_in_repository_only (default_directory : string) (t : CompilationTarget) :
  branch_selection BuildKGDB.repository default_directory t =
    {| branch := "mips_cheri-8.3-kgdb"; directory_name := default_directory |}
  ∧ branch_selection BuildGDB.repository default_directory t =
      (if bool_decide (t = CHERIBSD_AARCH64 ∨ t = CHERIBSD_MORELLO_HYBRID)
       then {| branch := "morello-8.3"; directory_name := "morello-gdb" |}
       else {| branch := "mips_cheri-8.3"; directory_name := default_directory |})
  ∧ url BuildKGDB.repository = url BuildGDB.repository
  ∧ force_branch BuildKGDB.repository = force_branch BuildGDB.repository
  ∧ old_urls BuildKGDB.repository = old_urls BuildGDB.repository
  ∧ BuildKGDB.supported_architectures = BuildGDB.supported_architectures
  ∧ BuildKGDB.__init__ = BuildGDB.__init__
  ∧ BuildKGDB.setup = BuildGDB.setup
  ∧ BuildKGDB.configure = BuildGDB.configure
  ∧ BuildKGDB.compile = BuildGDB.compile
  ∧ BuildKGDB.install = BuildGDB.install.
Proof.
  split; [apply branch_selection_kgdb|].
  split; [apply branch_selection_gdb|].
  by repeat split.
Qed.

(** ** The constructor *)

(** A purecap descriptor, outside the supported set, does trip the assertion. *)
Lemma init_rejects_purecap (super_init : BuildGDB.Attributes → BuildGDB.Attributes)
    (cls : BuildGDB.Attributes) :
  BuildGDB.__init__ super_init CHERIBSD_RISCV_PURECAP cls =
    Raise (AssertionError "Should only build this as a static MIPS binary not CHERIABI").
Proof. reflexivity. Qed.

(** C10.  For every target of the supported set the constructor's assertion
    holds (no supported target is purecap), so the constructor returns the
    object the base class built; and the linkage handed to the base class
    constructor is STATIC for every non-native target (for the native one it
    is the inherited linkage). *)
Theorem init_supported_never_aborts
    (super_init : BuildGDB.Attributes → BuildGDB.Attributes) (cls : BuildGDB.Attributes) :
  Forall (λ t,
    is_cheri_purecap t = false
    ∧ BuildGDB.__init__ super_init t cls = Ok (super_init (BuildGDB.init_before_super t cls)))
    BuildGDB.supported_architectures
  ∧ ∀ t : CompilationTarget,
      BuildGDB._linkage (BuildGDB.init_before_super t cls) =
        if is_native t then BuildGDB._linkage cls else Some STATIC.
Proof.
  split; [by repeat constructor|]. by intros [].
Qed.

(** ** setup *)

(** [setup] only ever appends to the configure argument list. *)
Lemma setup_configure_args_prefix (self : Project) (st0 : ProjectState) :
  configure_args st0 `prefix_of` configure_args (BuildGDB.setup self st0).
Proof.
  unfold BuildGDB.setup, extend, append.
  destruct (compiling_for_host self), (target_info_is_macos self),
    (should_include_debug_info self), (bool_decide (make_command self = "gmake"));
    simpl; rewrite <- ?(assoc_L (++)); by apply prefix_app_r.
Qed.

(** C7.  For every cross (non-host) target, after setup() the configure
    argument list contains --without-python and --without-expat, and the
    common compile flags contain -static. *)
Theorem setup_cross (self : Project) (st0 : ProjectState) :
  compiling_for_host self = false →
  "--without-python" ∈ configure_args (BuildGDB.setup self st0)
  ∧ "--without-expat" ∈ configure_args (BuildGDB.setup self st0)
  ∧ "-static" ∈ COMMON_FLAGS (BuildGDB.setup self st0).
Proof.
  intros Hcross. unfold BuildGDB.setup, extend, append, target_info_is_macos.
  unfold compiling_for_host in *. rewrite Hcross.
  destruct (should_include_debug_info self), (bool_decide (make_command self = "gmake"));
    simpl; rewrite !elem_of_app, !elem_of_cons; naive_solver.
Qed.

Lemma setup_cross_witness :
  compiling_for_host (sample_project CHERIBSD_RISCV_HYBRID false false) = false
  ∧ "--without-python" ∈
      configure_args (BuildGDB.setup (sample_project CHERIBSD_RISCV_HYBRID false false) empty_state)
  ∧ "--without-expat" ∈
      configure_args (BuildGDB.setup (sample_project CHERIBSD_RISCV_HYBRID false false) empty_state)
  ∧ "-static" ∈
      COMMON_FLAGS (BuildGDB.setup (sample_project CHERIBSD_RISCV_HYBRID false false) empty_state).
Proof.
  split; [reflexivity|].
  apply (setup_cross (sample_project CHERIBSD_RISCV_HYBRID false false) empty_state).
  reflexivity.
Defined.

(** C8.  When the target is the host, whatever the host operating system
    and so in particular when it is not macOS, after setup() the configure
    argument list contains --enable-ld=yes and does not contain --disable-ld
    (the list the base class hands over being free of it). *)
Theorem setup_host_enables_ld (self : Project) (st0 : ProjectState) :
  compiling_for_host self = true →
  "--disable-ld" ∉ configure_args st0 →
  "--enable-ld=yes" ∈ configure_args (BuildGDB.setup self st0)
  ∧ "--disable-ld" ∉ configure_args (BuildGDB.setup self st0).
Proof.
  intros Hhost Hbase. unfold BuildGDB.setup, extend, append, target_info_is_macos.
  unfold compiling_for_host in *. rewrite Hhost.
  destruct (IS_MAC self), (should_include_debug_info self),
    (bool_decide (make_command self = "gmake"));
    simpl; rewrite !elem_of_app, !elem_of_cons, !elem_of_nil;
    (split; [naive_solver|]);
    intros Hin; decompose [or] Hin; try done; try discriminate.
Qed.

Lemma setup_host_enables_ld_witness :
  "--enable-ld=yes" ∈ configure_args (BuildGDB.setup (sample_project NATIVE false false) empty_state)
  ∧ "--disable-ld" ∉ configure_args (BuildGDB.setup (sample_project NATIVE false false) empty_state).
Proof.
  apply (setup_host_enables_ld (sample_project NATIVE false false) empty_state).
  - reflexivity.
  - simpl. apply not_elem_of_nil.
Defined.

(** ** configure *)

(** C9.  configure() hands the generic configure step the configure
    arguments unchanged, and the environment mapping emptied exactly when
    the build targets the host and the host runs macOS (the arguments are
    printed then); in every other combination the mapping is handed over
    unchanged. *)
Theorem configure_delegates (oracle : Oracle) (self : Project) (st : ProjectState)
    (w : World) :
  let clears := compiling_for_host self && IS_MAC self in
  let env := if clears then ∅ else configure_environment st in
  let delegated := Configure (configure_args st) env in
  ∃ ok : bool,
    trace (BuildGDB.configure oracle self st w).2 =
      (trace w ++ (if clears then [Printed (configure_args st)] else [])
               ++ [Ran delegated ok])%list
    ∧ fs (BuildGDB.configure oracle self st w).2 = fs w
    ∧ (BuildGDB.configure oracle self st w).1 =
        if ok
        then Ok (if clears then with_configure_environment (λ _, ∅) st else st)
        else Raise (CalledProcessError delegated).
Proof.
  unfold BuildGDB.configure, mbind, M_bind, mret, M_ret, emit, run.
  destruct (compiling_for_host self && IS_MAC self); simpl.
  - match goal with |- context [oracle ?c ?w'] => exists (oracle c w'); destruct (oracle c w') end;
      simpl; by rewrite <- ?(assoc_L (++)).
  - match goal with |- context [oracle ?c ?w'] => exists (oracle c w'); destruct (oracle c w') end;
      simpl; done.
Qed.

(** ** Renaming files *)

Lemma append_inj_r (p a b : string) : p +:+ a = p +:+ b → a = b.
Proof. induction p as [|c p IH]; simpl; [done|]. intros [=]. auto. Qed.

#[global] Instance path_join_inj (dir : string) : Inj (=) (=) (path_join dir).
Proof. intros a b H. unfold path_join in H. by do 2 apply append_inj_r in H. Qed.

Lemma mv_f_lookup_src (src dst : string) (files : gmap string string) :
  src ≠ dst → mv_f src dst files !! src = None.
Proof.
  intros Hne. unfold mv_f. destruct (files !! src) eqn:Hsrc; [|done].
  rewrite lookup_insert_ne by done. apply lookup_delete_eq.
Qed.

Lemma mv_f_lookup_dst (src dst : string) (files : gmap string string) :
  mv_f src dst files !! dst =
    match files !! src with Some c => Some c | None => files !! dst end.
Proof.
  unfold mv_f. destruct (files !! src) eqn:Hsrc; [|done]. apply lookup_insert_eq.
Qed.

Lemma mv_f_lookup_ne (src dst k : string) (files : gmap string string) :
  k ≠ src → k ≠ dst → mv_f src dst files !! k = files !! k.
Proof.
  intros Hsrc Hdst. unfold mv_f. destruct (files !! src); [|done].
  rewrite lookup_insert_ne by done. by rewrite lookup_delete_ne.
Qed.

Lemma mv_f_missing (src dst : string) (files : gmap string string) :
  files !! src = None → mv_f src dst files = files.
Proof. intros H. unfold mv_f. by rewrite H. Qed.

Lemma moves_cons (sd : string * string) (l : list (string * string))
    (files : gmap string string) :
  moves (sd :: l) files = moves l (mv_f sd.1 sd.2 files).
Proof. reflexivity. Qed.

(** A path no rename mentions keeps its content. *)
Lemma moves_lookup_other (l : list (string * string)) (files : gmap string string)
    (k : string) :
  k ∉ l.*1 → k ∉ l.*2 → moves l files !! k = files !! k.
Proof.
  revert files. induction l as [|[s d] l IH]; intros files Hs Hd; [done|].
  rewrite moves_cons. rewrite fmap_cons, not_elem_of_cons in Hs, Hd.
  destruct Hs as [Hs1 Hs2], Hd as [Hd1 Hd2]. simpl in *.
  rewrite IH by done. by apply mv_f_lookup_ne.
Qed.

(** With all sources and destinations distinct, each rename of the sequence
    acts as if it were alone. *)
Lemma moves_lookup (l : list (string * string)) (files : gmap string string)
    (s d : string) :
  NoDup (l.*1 ++ l.*2) → (s, d) ∈ l →
  moves l files !! s = None
  ∧ moves l files !! d = match files !! s with Some c => Some c | None => files !! d end.
Proof.
  revert files. induction l as [|[s0 d0] l IH]; intros files Hnd Hin.
  { by apply elem_of_nil in Hin. }
  rewrite moves_cons. simpl in *.
  apply NoDup_cons in Hnd as [Hs0 Hnd].
  rewrite elem_of_app, elem_of_cons in Hs0.
  apply NoDup_app in Hnd as (Hnd1 & Hdisj & Hnd2).
  apply NoDup_cons in Hnd2 as [Hd0 Hnd2].
  assert (NoDup (l.*1 ++ l.*2)) as Hnd'.
  { apply NoDup_app. split_and!; [done| |done].
    intros x Hx1 Hx2. apply (Hdisj x Hx1). by right. }
  apply elem_of_cons in Hin as [[= -> ->]|Hin].
  - assert (s0 ∉ l.*1) by tauto. assert (s0 ∉ l.*2) by tauto.
    assert (d0 ∉ l.*1) by (intros Hx; apply (Hdisj d0 Hx); by left).
    rewrite !moves_lookup_other by done.
    split; [apply mv_f_lookup_src; tauto | apply mv_f_lookup_dst].
  - assert (s ∈ l.*1) as Hs by (by apply (list_elem_of_fmap_2 fst) in Hin).
    assert (d ∈ l.*2) as Hd by (by apply (list_elem_of_fmap_2 snd) in Hin).
    destruct (IH (mv_f s0 d0 files) Hnd' Hin) as [-> ->].
    assert (s ≠ s0) by (intros ->; tauto).
    assert (d ≠ d0) by (intros ->; tauto).
    assert (s ≠ d0) by (intros ->; apply (Hdisj d0 Hs); by left).
    assert (d ≠ s0) by (intros ->; tauto).
    by rewrite !mv_f_lookup_ne.
Qed.

(** ** The scoped removal of SDK programs *)

Lemma world_eta (w : World) : {| fs := fs w; trace := trace w |} = w.
Proof. by destruct w. Qed.

Section ContextManager.
Import TemporarilyRemoveProgramsFromSdk.
Variable self : t.

Let dry_run : bool := pretend (config self).
Let dir : string := sdk_bindir self.

Lemma enter_loop (progs : list string) (w : World) :
  for_each progs (λ prog,
    exists_ (dir </> prog) ≫= λ present : bool,
    if present then run_command_mv dry_run dir prog (prog +:+ ".backup") else skip) w =
  (Ok (), {| fs := if dry_run then fs w else moves (backup_moves dir progs) (fs w);
             trace := trace w |}).
Proof.
  revert w. induction progs as [|prog progs IH]; intros w; simpl.
  { unfold skip, mret, M_ret. destruct dry_run; by rewrite world_eta. }
  unfold mbind, M_bind, exists_, path_exists, run_command_mv at 1.
  destruct (fs w !! (dir </> prog)) as [c|] eqn:Hprog.
  - rewrite bool_decide_eq_true_2 by eauto.
    destruct dry_run eqn:Hdry.
    + by rewrite IH.
    + by rewrite Hprog, IH.
  - rewrite bool_decide_eq_false_2 by (intros [? ?]; congruence).
    unfold skip, mret, M_ret. rewrite IH.
    destruct dry_run; [done|]. simpl. by rewrite mv_f_missing.
Qed.

Lemma exit_loop (progs : list string) (w : World) :
  for_each progs (λ prog,
    exists_ (dir </> (prog +:+ ".backup")) ≫= λ present : bool,
    if present || dry_run then run_command_mv dry_run dir (prog +:+ ".backup") prog
    else skip) w =
  (Ok (), {| fs := if dry_run then fs w else moves (restore_moves dir progs) (fs w);
             trace := trace w |}).
Proof.
  revert w. induction progs as [|prog progs IH]; intros w; simpl.
  { unfold skip, mret, M_ret. destruct dry_run; by rewrite world_eta. }
  unfold mbind, M_bind, exists_, path_exists, run_command_mv at 1.
  destruct dry_run eqn:Hdry.
  - by rewrite orb_true_r, IH.
  - rewrite orb_false_r.
    destruct (fs w !! (dir </> (prog +:+ ".backup"))) as [c|] eqn:Hbackup.
    + rewrite bool_decide_eq_true_2 by eauto. by rewrite Hbackup, IH.
    + rewrite bool_decide_eq_false_2 by (intros [? ?]; congruence).
      unfold skip, mret, M_ret. rewrite IH. simpl. by rewrite mv_f_missing.
Qed.

(** [__enter__] never raises: it renames each program that exists. *)
Lemma enter_spec (w : World) :
  __enter__ self w =
  (Ok (), {| fs := if dry_run then fs w else moves (backup_moves dir (programs self)) (fs w);
             trace := (trace w ++ [StatusUpdate
               ("Temporarily moving" :: programs self ++ ["from"; dir])])%list |}).
Proof.
  unfold __enter__. unfold mbind at 1, M_bind at 1, emit. simpl.
  fold dry_run dir. by rewrite enter_loop.
Qed.

(** [__exit__] never raises: it renames each backup that exists. *)
Lemma exit_spec (w : World) :
  __exit__ self w =
  (Ok (), {| fs := if dry_run then fs w else moves (restore_moves dir (programs self)) (fs w);
             trace := (trace w ++ [StatusUpdate
               ("Restoring" :: programs self ++ ["in"; dir])])%list |}).
Proof.
  unfold __exit__. unfold mbind at 1, M_bind at 1, emit. simpl.
  fold dry_run dir. by rewrite exit_loop.
Qed.

End ContextManager.

(** ** compile *)

(** One run of compile(), symbolically: the programs are moved away, the
    make targets run until the first failure, the backups are moved back. *)
Lemma compile_spec (oracle : Oracle) (self : Project) (w : World) :
  ∃ (ok_b ok_g ok_l : bool) (r : Res unit),
    BuildGDB.compile oracle self w =
    (r, {| fs := if pretend (config self) then fs w
                 else moves (restore_moves (install_dir self) shadowed_programs)
                        (moves (backup_moves (install_dir self) shadowed_programs) (fs w));
           trace :=
             (trace w
              ++ [StatusUpdate ("Temporarily moving" :: shadowed_programs
                                ++ ["from"; install_dir self])]
              ++ ((λ run, Ran (Make run.1 (build_dir self)) run.2) <$>
                    (("all-binutils", ok_b) ::
                     if ok_b
                     then ("all-gdb", ok_g) ::
                          (if ok_g && compiling_for_host self then [("all-ld", ok_l)] else [])
                     else []))
              ++ [StatusUpdate ("Restoring" :: shadowed_programs
                                ++ ["in"; install_dir self])])%list |}).
Proof.
  unfold BuildGDB.compile, with_statement. rewrite enter_spec.
  unfold BuildGDB.run_make, run, mbind, M_bind, skip, mret, M_ret. simpl.
  case_oracle oracle;
    [case_oracle oracle; [destruct (compiling_for_host self); [case_oracle oracle|]|]|];
    rewrite exit_spec; simpl; rewrite <- ?(assoc_L app); simpl;
    destruct (pretend (config self));
    first [ by exists true, true, true; eexists
          | by exists true, true, false; eexists
          | by exists true, false, false; eexists
          | by exists false, false, false; eexists ].
Qed.

Lemma shadowed_paths_distinct (dir : string) :
  NoDup ((backup_moves dir shadowed_programs).*1 ++ (backup_moves dir shadowed_programs).*2).
Proof.
  unfold backup_moves. rewrite <- !list_fmap_compose.
  change (NoDup (path_join dir <$>
    (shadowed_programs ++ ((λ prog, prog +:+ ".backup") <$> shadowed_programs))%list)).
  apply NoDup_fmap_2; [apply _|].
  apply (bool_decide_unpack _). by vm_compute.
Qed.




(** A failing build on a directory with an assembler and a stale objdump
    backup: the assembler is back, the stale backup has become objdump, and
    the failure of make is what compile() raises. *)
Example compile_failure_restores :
  BuildGDB.compile always_fails (sample_project NATIVE false false) sdk_world =
    (Raise (CalledProcessError (Make "all-binutils" "/build/gdb")),
     {| fs := {["/sdk/as" := "assembler"; "/sdk/objdump" := "old objdump";
                "/sdk/gdb" := "debugger"]};
        trace := [StatusUpdate ["Temporarily moving"; "as"; "ld"; "objcopy"; "objdump";
                                "from"; "/sdk"];
                  Ran (Make "all-binutils" "/build/gdb") false;
                  StatusUpdate ["Restoring"; "as"; "ld"; "objcopy"; "objdump";
                                "in"; "/sdk"]] |}).
Proof. by vm_compute. Qed.

(** The same build in pretend mode touches nothing. *)
Example compile_pretend_keeps_directory :
  fs (BuildGDB.compile always_fails (sample_project NATIVE false true) sdk_world).2 =
    fs sdk_world.
Proof. by vm_compute. Qed.

Lemma make_runs_app (l1 l2 : list Event) :
  make_runs (l1 ++ l2) = (make_runs l1 ++ make_runs l2)%list.
Proof. apply omap_app. Qed.

Lemma make_runs_of_runs (cwd : string) (runs : list (string * bool)) :
  make_runs ((λ run, Ran (Make run.1 cwd) run.2) <$> runs) = runs.
Proof. induction runs as [|[target ok] runs IH]; [done|]. simpl. by f_equal. Qed.

(** C6, as stated, fails: on a host build whose all-binutils invocation
    fails, all-ld is never invoked although the build targets the host. *)
Lemma compile_host_failure_skips_ld :
  let self := sample_project NATIVE false false in
  let runs := make_runs (trace (BuildGDB.compile always_fails self empty_world).2) in
  compiling_for_host self = true
  ∧ runs = [("all-binutils", false)]
  ∧ ¬ ("all-ld" ∈ runs.*1 ↔ compiling_for_host self = true).
Proof.
  split; [reflexivity|]. split; [by vm_compute|].
  intros [_ Hld]. specialize (Hld eq_refl). vm_compute in Hld.
  apply list_elem_of_singleton in Hld. discriminate.
Qed.

(** C6, amended.  In every execution of compile(), all-binutils is invoked
    first; all-gdb is invoked exactly when all-binutils succeeded, after it;
    all-ld is invoked exactly when the build targets the host and both
    all-binutils and all-gdb succeeded, after both.  So all-ld is invoked
    only for the host, and whenever the two earlier invocations succeed it is
    invoked if and only if the build targets the host. *)
Theorem compile_make_sequence (oracle : Oracle) (self : Project) (w : World) :
  ∃ ok_b ok_g ok_l : bool,
    make_runs (trace (BuildGDB.compile oracle self w).2) =
      (make_runs (trace w)
       ++ ("all-binutils", ok_b) ::
          if ok_b
          then ("all-gdb", ok_g) ::
               (if ok_g && compiling_for_host self then [("all-ld", ok_l)] else [])
          else [])%list.
Proof.
  destruct (compile_spec oracle self w) as (ok_b & ok_g & ok_l & r & ->).
  exists ok_b, ok_g, ok_l. cbn [snd trace].
  rewrite !make_runs_app, make_runs_of_runs. simpl. by rewrite app_nil_r.
Qed.

(** ** install *)

Lemma hybrid_is_cross (self : Project) :
  target_info_is_cheribsd self && compiling_for_cheri_hybrid self = true →
  compiling_for_host self = false.
Proof.
  unfold target_info_is_cheribsd, compiling_for_cheri_hybrid, compiling_for_host.
  by destruct (crosscompile_target self).
Qed.

Lemma host_is_not_cheribsd (self : Project) :
  compiling_for_host self = true → target_info_is_cheribsd self = false.
Proof.
  unfold target_info_is_cheribsd, compiling_for_host.
  by destruct (crosscompile_target self).
Qed.

(** C2, as stated, fails: when the first install-gdb pass fails, install()
    raises and runs no second pass, although the target is CheriBSD hybrid,
    the purecap root filesystem exists and DESTDIR is set; and it raises just
    the same when the purecap root filesystem does not exist. *)
Lemma install_first_pass_failure :
  let self := sample_project CHERIBSD_RISCV_HYBRID false false in
  let first := MakeInstall "install-gdb" (make_install_env self) in
  (target_info_is_cheribsd self && compiling_for_cheri_hybrid self = true
   ∧ path_exists (purecap_rootfs self </> "usr") purecap_world = true
   ∧ is_Some (make_install_env self !! "DESTDIR")
   ∧ BuildGDB.install always_fails self purecap_world =
       (Raise (CalledProcessError first), {| fs := fs purecap_world; trace := [Ran first false] |}))
  ∧ (path_exists (purecap_rootfs self </> "usr") empty_world = false
     ∧ BuildGDB.install always_fails self empty_world =
         (Raise (CalledProcessError first), {| fs := ∅; trace := [Ran first false] |})).
Proof.
  repeat split; try by vm_compute. by eexists.
Qed.

(** C2, amended.  For every install() invocation on a CheriBSD CHERI-hybrid
    target whose first install-gdb pass succeeds: if the purecap root
    filesystem exists (its usr subdirectory is present), then a missing
    DESTDIR in the make-install environment is a fatal assertion failure
    (and no second pass runs), and with DESTDIR present a second install-gdb
    pass runs with DESTDIR set to the purecap rootfs path; if the purecap
    root filesystem does not exist, no second pass occurs, no error is
    raised, and only a diagnostic message is emitted. *)
Theorem install_hybrid (oracle : Oracle) (self : Project) (w : World) :
  target_info_is_cheribsd self && compiling_for_cheri_hybrid self = true →
  oracle (MakeInstall "install-gdb" (make_install_env self)) w = true →
  let first := Ran (MakeInstall "install-gdb" (make_install_env self)) true in
  let second := MakeInstall "install-gdb"
                  (<["DESTDIR" := purecap_rootfs self]> (make_install_env self)) in
  let r := (BuildGDB.install oracle self w).1 in
  let tr := trace (BuildGDB.install oracle self w).2 in
  if path_exists (purecap_rootfs self </> "usr") w then
    match make_install_env self !! "DESTDIR" with
    | None =>
        r = Raise (AssertionError "DESTDIR must be set in install")
        ∧ tr = (trace w ++ [first; Info ["Also installing to"; purecap_rootfs self]])%list
    | Some _ =>
        ∃ ok : bool,
          tr = (trace w ++ [first; Info ["Also installing to"; purecap_rootfs self];
                            Ran second ok])%list
          ∧ r = if ok then Ok () else Raise (CalledProcessError second)
    end
  else
    r = Ok ()
    ∧ tr = (trace w ++ [first; Info ["Not installing to purecap rootfs"; purecap_rootfs self;
                                     "since it doesn't exist"]])%list.
Proof.
  intros Hhybrid Hfirst. pose proof (hybrid_is_cross self Hhybrid) as Hcross.
  unfold BuildGDB.install, BuildGDB.run_make_install, run, exists_, path_exists,
    py_assert, emit, skip, raise, mbind, M_bind, mret, M_ret.
  rewrite Hhybrid, Hcross, Hfirst. cbn [fs trace fst snd].
  destruct (bool_decide (is_Some (fs w !! (purecap_rootfs self </> "usr")))).
  - destruct (make_install_env self !! "DESTDIR") as [dest|] eqn:Hdest.
    + rewrite bool_decide_eq_true_2 by eauto. cbn [fs trace fst snd].
      case_oracle oracle; [exists true | exists false];
        (split; [|reflexivity]); cbn [fs trace fst snd]; by rewrite <- !(assoc_L app).
    + rewrite bool_decide_eq_false_2 by (by intros [? ?]). cbn [fs trace fst snd].
      by rewrite <- !(assoc_L app).
  - cbn [fs trace fst snd]. by rewrite <- !(assoc_L app).
Qed.

Lemma install_hybrid_witness :
  let self := sample_project CHERIBSD_RISCV_HYBRID false false in
  let second := MakeInstall "install-gdb" (<["DESTDIR" := "/rootfs-purecap"]> (make_install_env self)) in
  ∃ ok : bool,
    trace (BuildGDB.install always_succeeds self purecap_world).2 =
      [Ran (MakeInstall "install-gdb" (make_install_env self)) true;
       Info ["Also installing to"; "/rootfs-purecap"];
       Ran second ok]
    ∧ (BuildGDB.install always_succeeds self purecap_world).1 =
        if ok then Ok () else Raise (CalledProcessError second).
Proof.
  exact (install_hybrid always_succeeds (sample_project CHERIBSD_RISCV_HYBRID false false)
           purecap_world eq_refl eq_refl).
Defined.

Lemma copied_files_app (l1 l2 : list Event) :
  copied_files (l1 ++ l2) = (copied_files l1 ++ copied_files l2)%list.
Proof. apply omap_app. Qed.

Lemma install_passes_app (l1 l2 : list Event) :
  install_passes (l1 ++ l2) = (install_passes l1 ++ install_passes l2)%list.
Proof. apply omap_app. Qed.

(** C4, as stated, fails.  On a host install in which every step succeeds,
    thirteen files are copied; the build-output name differs from the
    installed name for all thirteen, and still for five of them when the
    g prefix is set aside (three of those from the binutils directory):
    never for exactly two.  And on a host install whose install-gdb pass
    fails, nothing is copied at all. *)
Lemma install_host_renamed_count :
  let self := sample_project NATIVE false false in
  let copies := copied_files (trace (BuildGDB.install always_succeeds self empty_world).2) in
  (compiling_for_host self = true
   ∧ length copies = 13
   ∧ length (filter (λ sd, basename sd.1 ≠ basename sd.2) copies) = 13
   ∧ length (filter (λ sd, "g" +:+ basename sd.1 ≠ basename sd.2) copies) = 5
   ∧ length (filter (λ sd, "g" +:+ basename sd.1 ≠ basename sd.2
                           ∧ sd.1 ≠ "/build/gdb/ld/ld-new") copies) = 3)
  ∧ copied_files (trace (BuildGDB.install always_fails self empty_world).2) = [].
Proof. repeat split; by vm_compute. Qed.

(** C4, amended.  When compiling for the host and every step of install()
    succeeds, install() runs the install-gdb pass once and then copies all
    eight auxiliary binutils outputs (objdump, objcopy, addr2line, readelf,
    ar, ranlib, size, strings) from the build directory's binutils directory
    into the installation bin directory under their g-prefixed names,
    followed by five copies whose build-output names differ from the
    installed names beyond the g prefix: cxxfilt as gc++filt, nm-new as gnm,
    strip-new as gstrip, and ld-new as both ld.bfd and gld.bfd. *)
Theorem install_host_copies (oracle : Oracle) (self : Project) (w : World) :
  compiling_for_host self = true →
  (∀ c w', oracle c w' = true) →
  let build := build_dir self in
  let bindir := install_dir self </> "bin" in
  (BuildGDB.install oracle self w).1 = Ok ()
  ∧ install_passes (trace (BuildGDB.install oracle self w).2) =
      (install_passes (trace w) ++ [("install-gdb", make_install_env self)])%list
  ∧ copied_files (trace (BuildGDB.install oracle self w).2) =
      (copied_files (trace w) ++
       [(build </> "binutils" </> "objdump", bindir </> "gobjdump");
        (build </> "binutils" </> "objcopy", bindir </> "gobjcopy");
        (build </> "binutils" </> "addr2line", bindir </> "gaddr2line");
        (build </> "binutils" </> "readelf", bindir </> "greadelf");
        (build </> "binutils" </> "ar", bindir </> "gar");
        (build </> "binutils" </> "ranlib", bindir </> "granlib");
        (build </> "binutils" </> "size", bindir </> "gsize");
        (build </> "binutils" </> "strings", bindir </> "gstrings");
        (build </> "binutils/cxxfilt", bindir </> "gc++filt");
        (build </> "binutils/nm-new", bindir </> "gnm");
        (build </> "binutils/strip-new", bindir </> "gstrip");
        (build </> "ld/ld-new", bindir </> "ld.bfd");
        (build </> "ld/ld-new", bindir </> "gld.bfd")])%list.
Proof.
  intros Hhost Hok build bindir.
  pose proof (host_is_not_cheribsd self Hhost) as Hbsd.
  assert (∀ c w', run oracle c w' =
            (Ok (), {| fs := fs w'; trace := (trace w' ++ [Ran c true])%list |})) as Hrun.
  { intros c w'. unfold run. by rewrite Hok. }
  unfold BuildGDB.install, BuildGDB.run_make_install, BuildGDB.install_file,
    BuildGDB.binutils, for_each, skip, mbind, M_bind, mret, M_ret.
  rewrite Hhost, Hbsd. cbn [andb].
  repeat (rewrite Hrun; cbn [fs trace fst snd]).
  rewrite <- !(assoc_L app).
  split; [done|]. by rewrite install_passes_app, copied_files_app.
Qed.

Lemma install_host_copies_witness :
  let self := sample_project NATIVE false false in
  (BuildGDB.install always_succeeds self empty_world).1 = Ok ()
  ∧ install_passes (trace (BuildGDB.install always_succeeds self empty_world).2) =
      [("install-gdb", make_install_env self)]
  ∧ copied_files (trace (BuildGDB.install always_succeeds self empty_world).2) =
      [("/build/gdb/binutils/objdump", "/sdk/bin/gobjdump");
       ("/build/gdb/binutils/objcopy", "/sdk/bin/gobjcopy");
       ("/build/gdb/binutils/addr2line", "/sdk/bin/gaddr2line");
       ("/build/gdb/binutils/readelf", "/sdk/bin/greadelf");
       ("/build/gdb/binutils/ar", "/sdk/bin/gar");
       ("/build/gdb/binutils/ranlib", "/sdk/bin/granlib");
       ("/build/gdb/binutils/size", "/sdk/bin/gsize");
       ("/build/gdb/binutils/strings", "/sdk/bin/gstrings");
       ("/build/gdb/binutils/cxxfilt", "/sdk/bin/gc++filt");
       ("/build/gdb/binutils/nm-new", "/sdk/bin/gnm");
       ("/build/gdb/binutils/strip-new", "/sdk/bin/gstrip");
       ("/build/gdb/ld/ld-new", "/sdk/bin/ld.bfd");
       ("/build/gdb/ld/ld-new", "/sdk/bin/gld.bfd")].
Proof.
  exact (install_host_copies always_succeeds (sample_project NATIVE false false) empty_world
           eq_refl (λ _ _, eq_refl)).
Defined.

(** * Further properties *)

(** ** Sequences of renames, there and back *)

Lemma backup_moves_sources (dir : string) (progs : list string) :
  (backup_moves dir progs).*1 = path_join dir <$> progs.
Proof. unfold backup_moves. by rewrite <- list_fmap_compose. Qed.

Lemma backup_moves_targets (dir : string) (progs : list string) :
  (backup_moves dir progs).*2 = path_join dir <$> ((λ prog, prog +:+ ".backup") <$> progs).
Proof. unfold backup_moves. by rewrite <- !list_fmap_compose. Qed.

Lemma restore_moves_swap (dir : string) (progs : list string) :
  restore_moves dir progs = prod_swap <$> backup_moves dir progs.
Proof. unfold restore_moves, backup_moves. by rewrite <- list_fmap_compose. Qed.

Lemma manager_paths_moves (dir : string) (progs : list string) :
  manager_paths dir progs =
    ((backup_moves dir progs).*1 ++ (backup_moves dir progs).*2)%list.
Proof. unfold manager_paths. by rewrite backup_moves_sources, backup_moves_targets. Qed.

Lemma backup_move_elem (dir prog : string) (progs : list string) :
  prog ∈ progs →
  (dir </> prog, dir </> (prog +:+ ".backup")) ∈ backup_moves dir progs.
Proof.
  intros Hin.
  by apply (list_elem_of_fmap_2 (λ p, (dir </> p, dir </> (p +:+ ".backup")))) in Hin.
Qed.

Lemma swap_sources (l : list (string * string)) : (prod_swap <$> l).*1 = l.*2.
Proof. rewrite <- list_fmap_compose. by apply list_fmap_ext; intros ? []. Qed.

Lemma swap_targets (l : list (string * string)) : (prod_swap <$> l).*2 = l.*1.
Proof. rewrite <- list_fmap_compose. by apply list_fmap_ext; intros ? []. Qed.

Lemma swap_distinct (l : list (string * string)) :
  NoDup (l.*1 ++ l.*2) → NoDup ((prod_swap <$> l).*1 ++ (prod_swap <$> l).*2).
Proof.
  rewrite swap_sources, swap_targets. intros Hnd.
  apply NoDup_app in Hnd as (H1 & Hdisj & H2).
  apply NoDup_app. split_and!; [done| |done].
  intros x Hx2 Hx1. by apply (Hdisj x).
Qed.

(** Undoing a sequence of renames: the destination is free again and the
    source holds what the destination held (or, had nothing been there,
    what was left at the source). *)
Lemma moves_swap_lookup (l : list (string * string)) (files : gmap string string)
    (s d : string) :
  NoDup (l.*1 ++ l.*2) → (s, d) ∈ l →
  moves (prod_swap <$> l) files !! d = None
  ∧ moves (prod_swap <$> l) files !! s =
      match files !! d with Some c => Some c | None => files !! s end.
Proof.
  intros Hnd Hin. apply moves_lookup; [by apply swap_distinct|].
  by apply (list_elem_of_fmap_2 prod_swap) in Hin.
Qed.

(** Round trip: renaming away and back is the identity on a file system in
    which none of the destinations was taken. *)
Lemma moves_round_trip (l : list (string * string)) (files : gmap string string) :
  NoDup (l.*1 ++ l.*2) →
  (∀ d, d ∈ l.*2 → files !! d = None) →
  moves (prod_swap <$> l) (moves l files) = files.
Proof.
  intros Hnd Hfree. apply map_eq. intros k.
  destruct (decide (k ∈ l.*1)) as [Hk1|Hk1].
  - apply list_elem_of_fmap in Hk1 as ([s d] & -> & Hin). simpl.
    destruct (moves_swap_lookup l (moves l files) s d Hnd Hin) as [_ ->].
    destruct (moves_lookup l files s d Hnd Hin) as [-> ->].
    rewrite (Hfree d) by (by apply (list_elem_of_fmap_2 snd) in Hin).
    by destruct (files !! s).
  - destruct (decide (k ∈ l.*2)) as [Hk2|Hk2].
    + rewrite (Hfree k Hk2).
      apply list_elem_of_fmap in Hk2 as ([s d] & -> & Hin). simpl.
      by destruct (moves_swap_lookup l (moves l files) s d Hnd Hin) as [-> _].
    + rewrite moves_lookup_other by (by rewrite ?swap_sources, ?swap_targets).
      by apply moves_lookup_other.
Qed.

(** ** TemporarilyRemoveProgramsFromSdk, for any list of programs *)




(** X3.  Round trip: when none of the backup names is taken beforehand,
    [__enter__] followed by [__exit__] leaves the whole file system exactly
    as it was, in pretend mode or out of it. *)
Theorem enter_exit_round_trip (self : TemporarilyRemoveProgramsFromSdk.t) (w : World) :
  let dir := TemporarilyRemoveProgramsFromSdk.sdk_bindir self in
  let progs := TemporarilyRemoveProgramsFromSdk.programs self in
  NoDup (manager_paths dir progs) →
  Forall (λ prog, fs w !! (dir </> (prog +:+ ".backup")) = None) progs →
  fs (TemporarilyRemoveProgramsFromSdk.__exit__ self
        (TemporarilyRemoveProgramsFromSdk.__enter__ self w).2).2 = fs w.
Proof.
  intros dir progs Hnd Hfree. rewrite enter_spec, exit_spec. cbn [snd fs].
  fold dir progs. destruct (pretend _); [done|].
  rewrite manager_paths_moves in Hnd. rewrite restore_moves_swap.
  apply moves_round_trip; [done|].
  intros d Hd. rewrite backup_moves_targets in Hd.
  apply list_elem_of_fmap in Hd as (b & -> & Hb).
  apply list_elem_of_fmap in Hb as (prog & -> & Hprog).
  by apply (proj1 (Forall_forall _ _) Hfree).
Qed.

Lemma enter_exit_round_trip_witness :
  fs (TemporarilyRemoveProgramsFromSdk.__exit__ sample_manager
        (TemporarilyRemoveProgramsFromSdk.__enter__ sample_manager tidy_world).2).2 =
    fs tidy_world.
Proof.
  apply (enter_exit_round_trip sample_manager tidy_world).
  - apply (bool_decide_unpack _). by vm_compute.
  - by repeat constructor.
Defined.



(** ** compile, further *)






Lemma run_keeps_fs (oracle : Oracle) (c : Command) (w : World) :
  fs (run oracle c w).2 = fs w.
Proof. reflexivity. Qed.

Lemma programs_hidden_fs (dir : string) (w w' : World) :
  fs w' = fs w → programs_hidden dir w' = programs_hidden dir w.
Proof. intros Hfs. unfold programs_hidden, path_exists. by rewrite Hfs. Qed.

Lemma programs_hidden_after_enter (dir : string) (files : gmap string string)
    (tr : list Event) :
  programs_hidden dir
    {| fs := moves (backup_moves dir shadowed_programs) files; trace := tr |} = true.
Proof.
  apply Is_true_eq_true, forallb_True, Forall_forall. intros prog Hin.
  unfold path_exists. cbn [fs].
  destruct (moves_lookup _ files _ _ (shadowed_paths_distinct dir)
              (backup_move_elem dir prog _ Hin)) as [-> _].
  rewrite bool_decide_eq_false_2; [done|]. by intros [? ?].
Qed.

Lemma run_guarded (oracle : Oracle) (dir : string) (c : Command) (w : World) :
  programs_hidden dir w = true →
  run (λ c0 w0, programs_hidden dir w0 && oracle c0 w0) c w = run oracle c w.
Proof. intros Hhidden. unfold run. by rewrite Hhidden. Qed.

(** X8.  Outside pretend mode every make invocation of compile() is started
    in a file system from which as, ld, objcopy and objdump are absent:
    a make that fails whenever one of them is present behaves, inside
    compile(), exactly like one without that restriction. *)
Theorem compile_hides_programs_from_make (oracle : Oracle) (self : Project) (w : World) :
  pretend (config self) = false →
  BuildGDB.compile
    (λ c w0, programs_hidden (install_dir self) w0 && oracle c w0) self w =
  BuildGDB.compile oracle self w.
Proof.
  intros Hreal. unfold BuildGDB.compile, with_statement. rewrite enter_spec.
  cbn [TemporarilyRemoveProgramsFromSdk.config TemporarilyRemoveProgramsFromSdk.sdk_bindir
       TemporarilyRemoveProgramsFromSdk.programs]. rewrite Hreal.
  change ["as"; "ld"; "objcopy"; "objdump"] with shadowed_programs.
  set (w1 := {| fs := _; trace := _ |}).
  assert (programs_hidden (install_dir self) w1 = true) as H1
    by apply programs_hidden_after_enter.
  unfold BuildGDB.run_make, mbind, M_bind.
  rewrite run_guarded by done.
  pose proof (run_keeps_fs oracle (Make "all-binutils" (build_dir self)) w1) as Hfs2.
  destruct (run oracle (Make "all-binutils" (build_dir self)) w1) as [[[]|e] w2]; [|done].
  cbn [snd] in Hfs2.
  assert (programs_hidden (install_dir self) w2 = true) as H2
    by (by rewrite (programs_hidden_fs _ w1 w2)).
  rewrite run_guarded by done.
  pose proof (run_keeps_fs oracle (Make "all-gdb" (build_dir self)) w2) as Hfs3.
  destruct (run oracle (Make "all-gdb" (build_dir self)) w2) as [[[]|e] w3]; [|done].
  cbn [snd] in Hfs3.
  assert (programs_hidden (install_dir self) w3 = true) as H3
    by (rewrite (programs_hidden_fs _ w2 w3); [done|congruence]).
  destruct (compiling_for_host self); [|done].
  by rewrite run_guarded.
Qed.

Lemma compile_hides_programs_from_make_witness :
  BuildGDB.compile
    (λ c w0, programs_hidden "/sdk" w0 && always_succeeds c w0)
    (sample_project NATIVE false false) sdk_world =
  BuildGDB.compile always_succeeds (sample_project NATIVE false false) sdk_world.
Proof.
  apply (compile_hides_programs_from_make always_succeeds
           (sample_project NATIVE false false) sdk_world).
  reflexivity.
Defined.

(** Without the manager the restriction does show: in [sdk_world] the
    assembler is present, so such a make fails when started directly. *)
Example guarded_make_fails_outside :
  (run (λ c w0, programs_hidden "/sdk" w0 && always_succeeds c w0)
     (Make "all-gdb" "/build/gdb") sdk_world).1 =
    Raise (CalledProcessError (Make "all-gdb" "/build/gdb")).
Proof. by vm_compute. Qed.

(** ** setup, further *)

(** The configure arguments after setup(), in closed form. *)
Lemma setup_configure_args (self : Project) (st0 : ProjectState) :
  let install_root :=
    if compiling_for_host self then install_dir self else install_prefix self in
  configure_args (BuildGDB.setup self st0) =
    (configure_args st0
     ++ ["--disable-nls"; "--enable-tui";
         (if compiling_for_host self then "--enable-ld=yes" else "--disable-ld");
         "--disable-gold"; "--enable-64-bit-bfd"; "--without-gnu-as";
         "--mandir=" +:+ (install_root </> "man");
         "--infodir=" +:+ (install_root </> "info");
         "--disable-werror";
         "MAKEINFO=" +:+ str_optional (which_false self);
         "--with-gdb-datadir=" +:+ (install_root </> "share/gdb");
         "--disable-libstdcxx"; "--with-guile=no"]
     ++ (if compiling_for_host self && IS_MAC self
         then ["--target=x86_64-unknown-freebsd13"] else [])
     ++ ["--enable-targets=all"]
     ++ (if compiling_for_host self
         then ["--with-expat"; "--with-python=" +:+ sys_executable self]
         else ["--without-python"; "--without-expat"; "--without-libunwind-ia64"]))%list.
Proof. setup_bools self; setup_fields; reflexivity. Qed.

(** The compile and link flags after setup(), in closed form. *)
Lemma setup_flags (self : Project) (st0 : ProjectState) :
  COMMON_FLAGS (BuildGDB.setup self st0) =
    (COMMON_FLAGS st0
     ++ (if should_include_debug_info self then ["-g"] else [])
     ++ ["-fcommon"]
     ++ (if compiling_for_host self then []
         else ["-static"; "-DRL_NO_COMPAT"; "-DLIBICONV_PLUG"; "-fno-strict-aliasing"]))%list
  ∧ LDFLAGS (BuildGDB.setup self st0) =
      (LDFLAGS st0
       ++ (if compiling_for_host self then ["-L/usr/local/lib"] else ["--static"; "-lelf"]))%list
  ∧ common_warning_flags (BuildGDB.setup self st0) =
      (common_warning_flags st0
       ++ ["-Wno-mismatched-tags"; "-Wno-unknown-warning-option";
           "-Werror=implicit-function-declaration"])%list
  ∧ CXXFLAGS (BuildGDB.setup self st0) = (CXXFLAGS st0 ++ ["-Wno-mismatched-tags"])%list
  ∧ cross_warning_flags (BuildGDB.setup self st0) =
      (cross_warning_flags st0
       ++ ["-Wno-error=format"; "-Wno-error=incompatible-pointer-types"])%list.
Proof. setup_bools self; setup_fields; rewrite ?app_nil_r; by split_and!. Qed.

(** The configure environment after setup(), in closed form. *)
Lemma setup_configure_environment (self : Project) (st0 : ProjectState) :
  configure_environment (BuildGDB.setup self st0) =
    let env := configure_environment st0 in
    let env :=
      if compiling_for_host self then env
      else <["LIBS" := ""]> (<["TMPDIR" := "/tmp"]> (<["CONFIGURED_BISON" := "byacc"]>
             (<["CONFIGURED_M4" := "m4"]> (<["MAKEINFO" := "/bin/false"]>
             (<["am_cv_CC_dependencies_compiler_type" := "gcc3"]>
             (<["lt_cv_sys_max_cmd_len" := "262144"]>
             (<["gl_cv_func_gettimeofday_clobber" := "no"]> env))))))) in
    let env :=
      if bool_decide (make_command self = "gmake") then <["MAKE" := "gmake"]> env else env in
    let env := <["CXXFLAGS_FOR_BUILD" := "-g -fcommon"]> (<["CFLAGS_FOR_BUILD" := "-g -fcommon"]>
                 (<["CXX_FOR_BUILD" := host_CXX self]> (<["CC_FOR_BUILD" := host_CC self]> env))) in
    if compiling_for_host self then env
    else <["NM" := sdk_bindir self </> "nm"]> (<["RANLIB" := sdk_bindir self </> "ranlib"]>
           (<["AR" := sdk_bindir self </> "ar"]> env)).
Proof. setup_bools self; reflexivity. Qed.

(** The make environment after setup(): the configure environment laid
    over what make had. *)
Lemma setup_make_args_env (self : Project) (st0 : ProjectState) :
  make_args_env (BuildGDB.setup self st0) =
    configure_environment (BuildGDB.setup self st0) ∪ make_args_env st0.
Proof. setup_bools self; reflexivity. Qed.

(** X9.  setup() is append-only: each of the six flag lists it touches
    keeps, as a prefix, what the base class had put there. *)
Theorem setup_append_only (self : Project) (st0 : ProjectState) :
  configure_args st0 `prefix_of` configure_args (BuildGDB.setup self st0)
  ∧ common_warning_flags st0 `prefix_of` common_warning_flags (BuildGDB.setup self st0)
  ∧ CXXFLAGS st0 `prefix_of` CXXFLAGS (BuildGDB.setup self st0)
  ∧ COMMON_FLAGS st0 `prefix_of` COMMON_FLAGS (BuildGDB.setup self st0)
  ∧ cross_warning_flags st0 `prefix_of` cross_warning_flags (BuildGDB.setup self st0)
  ∧ LDFLAGS st0 `prefix_of` LDFLAGS (BuildGDB.setup self st0).
Proof.
  destruct (setup_flags self st0) as (-> & -> & -> & -> & ->).
  rewrite setup_configure_args. split_and!; by apply prefix_app_r.
Qed.

(** X10.  After setup() every variable of the configure environment is
    passed to make with the same value, and a variable make already had
    that the configure environment does not define is kept. *)
Theorem setup_make_env (self : Project) (st0 : ProjectState) :
  configure_environment (BuildGDB.setup self st0) ⊆ make_args_env (BuildGDB.setup self st0)
  ∧ ∀ k, configure_environment (BuildGDB.setup self st0) !! k = None →
         make_args_env (BuildGDB.setup self st0) !! k = make_args_env st0 !! k.
Proof.
  rewrite setup_make_args_env. split.
  - apply map_union_subseteq_l.
  - intros k Hk. by rewrite lookup_union_r.
Qed.

(** X11.  The MAKEINFO argument is built from [str(shutil.which("false"))]:
    when no [false] program is found, setup() passes the literal argument
    MAKEINFO=None to configure. *)
Theorem setup_makeinfo_none (self : Project) (st0 : ProjectState) :
  which_false self = None →
  "MAKEINFO=None" ∈ configure_args (BuildGDB.setup self st0).
Proof.
  intros Hnone. rewrite setup_configure_args, Hnone. cbn [str_optional].
  rewrite !elem_of_app. right. left. rewrite !elem_of_cons. auto 20.
Qed.

Lemma setup_makeinfo_none_witness :
  "MAKEINFO=None" ∈ configure_args (BuildGDB.setup project_without_false empty_state).
Proof. apply (setup_makeinfo_none project_without_false empty_state). reflexivity. Defined.

(** X12.  The GUI branch of setup() is dead: --enable-gdbtk is never added.
    The FreeBSD target override is added exactly on a macOS host. *)
Theorem setup_gdbtk_and_target (self : Project) (st0 : ProjectState) :
  ("--enable-gdbtk" ∈ configure_args (BuildGDB.setup self st0)
     ↔ "--enable-gdbtk" ∈ configure_args st0)
  ∧ ("--target=x86_64-unknown-freebsd13" ∈ configure_args (BuildGDB.setup self st0)
     ↔ compiling_for_host self && IS_MAC self = true
       ∨ "--target=x86_64-unknown-freebsd13" ∈ configure_args st0).
Proof.
  rewrite setup_configure_args.
  split; destruct (compiling_for_host self), (IS_MAC self); simpl.
  1-4: rewrite ?elem_of_app, ?elem_of_cons, ?elem_of_nil;
       (split; [intros Hin; decompose [or] Hin; clear Hin; try discriminate; try done; auto
               | auto 20]).
  all: flag_iff.
Qed.

(** X13.  setup() chooses the host or the cross flags, never both:
    --with-expat and --enable-ld=yes are added exactly for the host,
    --without-expat, --without-python and --disable-ld exactly for a cross
    target. *)
Theorem setup_host_xor_cross (self : Project) (st0 : ProjectState) :
  let args := configure_args (BuildGDB.setup self st0) in
  ("--with-expat" ∈ args ↔ compiling_for_host self = true ∨ "--with-expat" ∈ configure_args st0)
  ∧ ("--enable-ld=yes" ∈ args
       ↔ compiling_for_host self = true ∨ "--enable-ld=yes" ∈ configure_args st0)
  ∧ ("--without-expat" ∈ args
       ↔ compiling_for_host self = false ∨ "--without-expat" ∈ configure_args st0)
  ∧ ("--without-python" ∈ args
       ↔ compiling_for_host self = false ∨ "--without-python" ∈ configure_args st0)
  ∧ ("--disable-ld" ∈ args
       ↔ compiling_for_host self = false ∨ "--disable-ld" ∈ configure_args st0).
Proof.
  intros args. subst args. rewrite setup_configure_args.
  split_and!; destruct (compiling_for_host self), (IS_MAC self); simpl; flag_iff.
Qed.

(** X14.  Static linking and debug information in the common compile
    flags: -fcommon is always added; -g exactly when debug information is
    requested; -static and the defines that go with it exactly for a cross
    target, so a host build is never made static by setup(). *)
Theorem setup_common_flags (self : Project) (st0 : ProjectState) :
  let flags := COMMON_FLAGS (BuildGDB.setup self st0) in
  "-fcommon" ∈ flags
  ∧ ("-g" ∈ flags ↔ should_include_debug_info self = true ∨ "-g" ∈ COMMON_FLAGS st0)
  ∧ ("-static" ∈ flags ↔ compiling_for_host self = false ∨ "-static" ∈ COMMON_FLAGS st0)
  ∧ ("-DRL_NO_COMPAT" ∈ flags
       ↔ compiling_for_host self = false ∨ "-DRL_NO_COMPAT" ∈ COMMON_FLAGS st0)
  ∧ ("--static" ∈ LDFLAGS (BuildGDB.setup self st0)
       ↔ compiling_for_host self = false ∨ "--static" ∈ LDFLAGS st0).
Proof.
  intros flags. subst flags.
  destruct (setup_flags self st0) as (-> & -> & _).
  split.
  { rewrite !elem_of_app, !elem_of_cons. auto. }
  split_and!; destruct (compiling_for_host self), (should_include_debug_info self);
    simpl; flag_iff.
Qed.

(** X15.  The environment setup() prepares for configure: the build
    compiler and its flags are always set, overriding what was there; MAKE
    is set to gmake exactly when the make command is gmake; MAKEINFO and
    LIBS are forced for a cross target and left alone for the host. *)
Theorem setup_environment (self : Project) (st0 : ProjectState) :
  let env := configure_environment (BuildGDB.setup self st0) in
  let env0 := configure_environment st0 in
  env !! "CC_FOR_BUILD" = Some (host_CC self)
  ∧ env !! "CXX_FOR_BUILD" = Some (host_CXX self)
  ∧ env !! "CFLAGS_FOR_BUILD" = Some "-g -fcommon"
  ∧ env !! "CXXFLAGS_FOR_BUILD" = Some "-g -fcommon"
  ∧ env !! "MAKE" =
      (if bool_decide (make_command self = "gmake") then Some "gmake" else env0 !! "MAKE")
  ∧ env !! "MAKEINFO" =
      (if compiling_for_host self then env0 !! "MAKEINFO" else Some "/bin/false")
  ∧ env !! "LIBS" = (if compiling_for_host self then env0 !! "LIBS" else Some "").
Proof.
  intros env env0. subst env env0. rewrite setup_configure_environment. cbv zeta.
  destruct (compiling_for_host self), (bool_decide (make_command self = "gmake"));
    split_and!;
    repeat (rewrite lookup_insert_eq || (rewrite lookup_insert_ne by discriminate));
    reflexivity.
Qed.

(** ** setup followed by configure *)

(** X16.  On a macOS host, configure() after setup() hands the generic
    configure step an empty environment: none of the variables setup()
    prepared reaches ./configure, not even the build compiler, while all of
    them still reach make through the make environment. *)
Theorem setup_then_configure_on_mac (oracle : Oracle) (self : Project)
    (st0 : ProjectState) (w : World) :
  compiling_for_host self = true →
  IS_MAC self = true →
  let st1 := BuildGDB.setup self st0 in
  ∃ ok : bool,
    trace (BuildGDB.configure oracle self st1 w).2 =
      (trace w ++ [Printed (configure_args st1);
                   Ran (Configure (configure_args st1) ∅) ok])%list
    ∧ configure_environment st1 !! "CC_FOR_BUILD" = Some (host_CC self)
    ∧ match (BuildGDB.configure oracle self st1 w).1 with
      | Ok st2 =>
          configure_environment st2 = ∅
          ∧ configure_environment st1 ⊆ make_args_env st2
          ∧ make_args_env st2 !! "CC_FOR_BUILD" = Some (host_CC self)
      | Raise e => ok = false
      end.
Proof.
  intros Hhost Hmac st1.
  destruct (configure_delegates oracle self st1 w) as (ok & Htrace & _ & Hres).
  rewrite Hhost, Hmac in Htrace, Hres. cbn [andb] in Htrace, Hres.
  exists ok. split; [by rewrite Htrace|].
  destruct (setup_environment self st0) as (Hcc & _).
  destruct (setup_make_env self st0) as (Hsub & _).
  split; [exact Hcc|]. rewrite Hres. destruct ok; [|done].
  cbn [with_configure_environment configure_environment make_args_env].
  split_and!; [done|exact Hsub|].
  by apply (lookup_weaken _ _ _ _ Hcc).
Qed.

Lemma setup_then_configure_on_mac_witness :
  let self := sample_project NATIVE true false in
  let st1 := BuildGDB.setup self empty_state in
  ∃ ok : bool,
    trace (BuildGDB.configure always_succeeds self st1 empty_world).2 =
      [Printed (configure_args st1); Ran (Configure (configure_args st1) ∅) ok]
    ∧ configure_environment st1 !! "CC_FOR_BUILD" = Some "/usr/bin/cc"
    ∧ match (BuildGDB.configure always_succeeds self st1 empty_world).1 with
      | Ok st2 =>
          configure_environment st2 = ∅
          ∧ configure_environment st1 ⊆ make_args_env st2
          ∧ make_args_env st2 !! "CC_FOR_BUILD" = Some "/usr/bin/cc"
      | Raise e => ok = false
      end.
Proof.
  exact (setup_then_configure_on_mac always_succeeds (sample_project NATIVE true false)
           empty_state empty_world eq_refl eq_refl).
Defined.

(** ** install, further *)

(** X17.  For a cross target install() never copies a file: it only runs
    the installer, whatever the outcome of each pass. *)
Theorem install_cross_never_copies (oracle : Oracle) (self : Project) (w : World) :
  compiling_for_host self = false →
  copied_files (trace (BuildGDB.install oracle self w).2) = copied_files (trace w).
Proof.
  intros Hcross.
  unfold BuildGDB.install, BuildGDB.run_make_install, run, exists_, path_exists,
    py_assert, emit, skip, raise, mbind, M_bind, mret, M_ret.
  rewrite Hcross.
  destruct (target_info_is_cheribsd self && compiling_for_cheri_hybrid self);
    cbn [fst snd fs trace];
    [destruct (bool_decide (is_Some (fs w !! (purecap_rootfs self </> "usr"))));
     [destruct (bool_decide (is_Some (make_install_env self !! "DESTDIR")))|]|];
    run_cases oracle;
    rewrite ?copied_files_app; simpl; by rewrite ?app_nil_r.
Qed.

Lemma install_cross_never_copies_witness :
  copied_files (trace (BuildGDB.install always_succeeds
                         (sample_project CHERIBSD_RISCV_HYBRID false false) purecap_world).2) = [].
Proof.
  exact (install_cross_never_copies always_succeeds
           (sample_project CHERIBSD_RISCV_HYBRID false false) purecap_world eq_refl).
Defined.



(** The failing third copy leaves exactly the first two behind. *)
Example install_stops_at_first_failure :
  copied_files (trace (BuildGDB.install fails_at_addr2line
                         (sample_project NATIVE false false) empty_world).2) =
    [("/build/gdb/binutils/objdump", "/sdk/bin/gobjdump");
     ("/build/gdb/binutils/objcopy", "/sdk/bin/gobjcopy")]
  ∧ (BuildGDB.install fails_at_addr2line (sample_project NATIVE false false) empty_world).1 =
      Raise (CalledProcessError
               (InstallFile "/build/gdb/binutils/addr2line" "/sdk/bin/gaddr2line")).
Proof. by vm_compute. Qed.

(** X19.  install() runs the installer once or twice, never more: the
    first pass always uses the unmodified make-install environment, and a
    second pass, with DESTDIR replaced by the purecap rootfs, is only ever
    run for a CheriBSD hybrid target whose purecap rootfs exists and whose
    environment defines DESTDIR. *)
Theorem install_pass_count (oracle : Oracle) (self : Project) (w : World) :
  let env := make_install_env self in
  ∃ rest : list (string * gmap string string),
    install_passes (trace (BuildGDB.install oracle self w).2) =
      (install_passes (trace w) ++ ("install-gdb", env) :: rest)%list
    ∧ (rest = []
       ∨ rest = [("install-gdb", <["DESTDIR" := purecap_rootfs self]> env)]
         ∧ target_info_is_cheribsd self && compiling_for_cheri_hybrid self = true
         ∧ path_exists (purecap_rootfs self </> "usr") w = true
         ∧ is_Some (env !! "DESTDIR")).
Proof.
  intros env. subst env.
  destruct (compiling_for_host self) eqn:Hhost.
  - pose proof (host_is_not_cheribsd self Hhost) as Hbsd.
    unfold BuildGDB.install, BuildGDB.run_make_install, BuildGDB.install_file,
      BuildGDB.binutils, for_each, run, skip, mbind, M_bind, mret, M_ret.
    rewrite Hhost, Hbsd. cbn [andb fst snd fs trace].
    run_cases oracle; exists []; (split; [|by left]);
      rewrite ?install_passes_app; simpl; by rewrite ?app_nil_r, <- ?(assoc_L app).
  - unfold BuildGDB.install, BuildGDB.run_make_install, run, exists_, path_exists,
      py_assert, emit, skip, raise, mbind, M_bind, mret, M_ret.
    rewrite Hhost.
    destruct (target_info_is_cheribsd self && compiling_for_cheri_hybrid self);
      cbn [fst snd fs trace].
    + destruct (bool_decide (is_Some (fs w !! (purecap_rootfs self </> "usr")))) eqn:Husr.
      * destruct (bool_decide (is_Some (make_install_env self !! "DESTDIR"))) eqn:Hdest.
        -- apply bool_decide_eq_true_1 in Hdest.
           case_oracle oracle; cbn [fst snd fs trace];
             [case_oracle oracle; cbn [fst snd fs trace];
              eexists; (split; [|right; by split_and!])
             |exists []; (split; [|by left])];
             rewrite ?install_passes_app; simpl; by rewrite ?app_nil_r, <- ?(assoc_L app).
        -- run_cases oracle; exists []; (split; [|by left]);
             rewrite ?install_passes_app; simpl; by rewrite ?app_nil_r, <- ?(assoc_L app).
      * run_cases oracle; exists []; (split; [|by left]);
          rewrite ?install_passes_app; simpl; by rewrite ?app_nil_r, <- ?(assoc_L app).
    + run_cases oracle; exists []; (split; [|by left]);
        rewrite ?install_passes_app; simpl; by rewrite ?app_nil_r, <- ?(assoc_L app).
Qed.

(** ** compile, as a whole *)


